(** * ComparisonRangeLabel: the label-resolution effect of the explore view

    Shallow embedding of
    [superset-frontend/src/explore/components/controls/ComparisonRangeLabel.tsx].

    The component reads four values from the redux store (the active
    temporal-range filters, the previous custom filter, the comparison
    shifts and the explicit start date) and, in one [useEffect], turns
    them into a list of label strings by calling the time-range service.

    The embedding keeps the shape of the source:
    - the store selectors are functions of the form data;
    - a promise is its settled outcome ([Resolved] or [Rejected]);
    - every asynchronous computation carries the list of requests it
      sent to the service, so that "which calls were made" is a value;
    - the functions imported from other packages ([fetchTimeRange],
      [getTimeOffset], [parseDttmToDate], [extendedDayjs] and the
      matcher of [DEFAULT_DATE_PATTERN]) are the fields of a class and
      every statement is proved for all of their implementations. *)

From Stdlib Require Import String Ascii List Bool Arith Lia.
Import ListNotations.
Open Scope list_scope.
Open Scope string_scope.

(** ** JavaScript values as the component uses them *)

Module Js.

(** Truthiness of a possibly [undefined] string: [undefined] and the
    empty string are falsy. *)
Definition truthy (v : option string) : bool :=
  match v with
  | Some s => negb (s =? "")
  | None => false
  end.

(** Truthiness of a possibly [undefined] array: every array is truthy,
    the empty one too. *)
Definition truthyArray {A : Type} (v : option (list A)) : bool :=
  match v with
  | Some _ => true
  | None => false
  end.

(** lodash [isEmpty] on an array. *)
Definition isEmpty {A : Type} (l : list A) : bool :=
  match l with
  | [] => true
  | _ :: _ => false
  end.

(** lodash [isEmpty] on a possibly [undefined] array. *)
Definition isEmptyOpt {A : Type} (v : option (list A)) : bool :=
  match v with
  | Some l => isEmpty l
  | None => true
  end.

(** [ensureIsArray]: [undefined] becomes the empty array, an array is
    returned as it is. *)
Definition ensureIsArray {A : Type} (v : option (list A)) : list A :=
  match v with
  | Some l => l
  | None => []
  end.

(** [Array.prototype.includes] on strings. *)
Definition includes (x : string) (l : list string) : bool :=
  existsb (String.eqb x) l.

(** [a || b] on a possibly [undefined] string with a string default. *)
Definition orElse (v : option string) (d : string) : string :=
  if truthy v then match v with Some s => s | None => d end else d.

(** [a ?? b]. *)
Definition nullish {A : Type} (v : option A) (d : A) : A :=
  match v with
  | Some a => a
  | None => d
  end.

(** A value inside a template literal. *)
Definition interpolate (v : option string) : string :=
  match v with
  | Some s => s
  | None => "undefined"
  end.

(** [String.prototype.split] for a non-empty separator.  [skip] counts
    the characters of a separator that was just recognised and is still
    to be passed over, [cur] is the piece being read. *)
Fixpoint splitFrom (sep : string) (skip : nat) (cur s : string) : list string :=
  match s with
  | EmptyString => [cur]
  | String ch rest =>
      match skip with
      | S k => splitFrom sep k cur rest
      | O =>
          if String.prefix sep s
          then cur :: splitFrom sep (String.length sep - 1) "" rest
          else splitFrom sep 0 (cur ++ String ch "") rest
      end
  end.

Definition split (sep s : string) : list string := splitFrom sep 0 "" s.

(** [sep] does not start at any position inside [a] when [a] is
    followed by [tl]. *)
Fixpoint sepFree (sep a tl : string) : bool :=
  match a with
  | EmptyString => true
  | String ch a' => negb (String.prefix sep (a ++ tl)) && sepFree sep a' tl
  end.

End Js.

(** ** Promises and the request log *)

(** A settled promise. *)
Inductive Promise (A : Type) : Type :=
| Resolved (a : A)
| Rejected.

Arguments Resolved {A} a.
Arguments Rejected {A}.

(** What the time-range service answers: [{ value?: string }]. *)
Record Response : Type := mkResponse { value : option string }.

(** One request to the service: [fetchTimeRange(timeRange, columnName, shifts?)]. *)
Record FetchCall : Type := mkFetchCall {
  callTimeRange : string;
  callColumn : string;
  callShifts : option (list string)
}.

(** An asynchronous computation: the requests it sent, in order, and
    the outcome of its promise. *)
Definition Async (A : Type) : Type := (list FetchCall * Promise A)%type.

Module Async.

(** [Promise.resolve(a)]. *)
Definition resolve {A : Type} (a : A) : Async A := ([], Resolved a).

(** [p.then(k)]: [k] runs only when [p] resolves; a rejection of [p]
    is the rejection of the whole chain. *)
Definition andThen {A B : Type} (p : Async A) (k : A -> Async B) : Async B :=
  match snd p with
  | Resolved a => ((fst p ++ fst (k a))%list, snd (k a))
  | Rejected => (fst p, Rejected)
  end.

(** [Promise.all] on settled promises: resolved with all the values, in
    the order of the promises, or rejected as soon as one is. *)
Fixpoint all {A : Type} (ps : list (Promise A)) : Promise (list A) :=
  match ps with
  | [] => Resolved []
  | Resolved a :: rest =>
      match all rest with
      | Resolved l => Resolved (a :: l)
      | Rejected => Rejected
      end
  | Rejected :: _ => Rejected
  end.

End Async.

Notation "p '>>then' k" := (Async.andThen p k) (at level 50, left associativity).

(** ** The store *)

(** An adhoc filter, with the fields the component reads. *)
Record BinaryAdhocFilter : Type := mkFilter {
  operator : string;
  subject : string;
  comparator : string
}.

(** [{ ...filter, comparator: c }]. *)
Definition withComparator (filter : BinaryAdhocFilter) (c : string) : BinaryAdhocFilter :=
  {| operator := operator filter; subject := subject filter; comparator := c |}.

(** [state.explore.form_data], with the fields the component reads, at
    the types the selectors declare: [time_compare] is a [string[]] and
    [start_date_offset] a [string], and each of them, like
    [adhoc_custom] and [time_comparison], may be [undefined]. *)
Record FormData : Type := mkFormData {
  adhoc_filters : list BinaryAdhocFilter;
  adhoc_custom : option (list BinaryAdhocFilter);
  time_compare : option (list string);
  time_comparison : option string;
  start_date_offset : option string
}.

(** The options object handed to [getTimeOffset]. *)
Module TimeOffset.
Record Options : Type := mkOptions {
  timeRangeFilter : BinaryAdhocFilter;
  shifts : list string;
  startDate : option string;
  includeFutureOffsets : bool
}.
End TimeOffset.

(** ** The imported functions *)

Class Externals : Type := {
  DateT : Type;
  Dayjs : Type;
  (** [fetchTimeRange(timeRange, columnName, shifts?)] *)
  fetchTimeRange : string -> string -> option (list string) -> Promise Response;
  (** [getTimeOffset({ timeRangeFilter, shifts, startDate, includeFutureOffsets })] *)
  getTimeOffset : TimeOffset.Options -> list string;
  parseDttmToDate : option string -> DateT;
  extendedDayjs : DateT -> Dayjs;
  (** [d.format(pattern)] *)
  format : Dayjs -> string -> string;
  (** [a.isSameOrBefore(b)] *)
  isSameOrBefore : Dayjs -> Dayjs -> bool;
  (** [s.match(DEFAULT_DATE_PATTERN)]: [null] or the array of matches. *)
  matchDefaultDatePattern : string -> option (list string)
}.

(** ** The component *)

Definition DAYJS_FORMAT : string := "YYYY-MM-DD".

Definition oldChoices : list (string * string) :=
  [ ("r", "inherit");
    ("y", "1 year ago");
    ("m", "1 month ago");
    ("w", "1 week ago");
    ("c", "custom") ].

(** [oldChoices.hasOwnProperty(k)] together with [oldChoices[k]]. *)
Fixpoint ownProperty (obj : list (string * string)) (k : string) : option string :=
  match obj with
  | [] => None
  | (k', v) :: rest => if k' =? k then Some v else ownProperty rest k
  end.

Definition isTemporalRange (adhoc_filter : BinaryAdhocFilter) : bool :=
  operator adhoc_filter =? "TEMPORAL_RANGE".

(** The selectors. *)
Definition currentTimeRangeFilters (formData : FormData) : list BinaryAdhocFilter :=
  List.filter isTemporalRange (adhoc_filters formData).

Definition previousCustomFilter (formData : FormData) : option (list BinaryAdhocFilter) :=
  option_map (List.filter isTemporalRange) (adhoc_custom formData).

Definition shifts (formData : FormData) : option (list string) :=
  if negb (Js.truthyArray (time_compare formData)) then
    let previousTimeComparison := Js.orElse (time_comparison formData) "" in
    match ownProperty oldChoices previousTimeComparison with
    | Some previousChoice => Some [previousChoice]
    | None => time_compare formData
    end
  else time_compare formData.

Definition startDate (formData : FormData) : option string :=
  start_date_offset formData.

Definition isLiteralShift (shift : string) : bool :=
  negb (shift =? "custom") && negb (shift =? "inherit").

Definition isRelativeShift (shift : string) : bool :=
  (shift =? "custom") || (shift =? "inherit").

(** What the effect did: the requests sent on behalf of each filter and
    the argument of [setLabels], when it was called. *)
Record EffectResult : Type := mkEffectResult {
  requests : list (list FetchCall);
  setLabels : option (list string)
}.

(** The [labels] state after the effect. *)
Definition labelsAfter (labels : list string) (r : EffectResult) : list string :=
  match setLabels r with
  | Some l => l
  | None => labels
  end.

Section Component.

Context {ext : Externals}.

(** A request to the service, logged. *)
Definition fetch (timeRange columnName : string) (shiftList : option (list string))
  : Async Response :=
  ([mkFetchCall timeRange columnName shiftList],
   fetchTimeRange timeRange columnName shiftList).

(** The callback of [fetchTimeRange(filter.comparator, filter.subject).then(res => ...)]. *)
Definition onOwnRange (shiftsArray : list string) (startDate useStartDate : option string)
  (filter : BinaryAdhocFilter) (res : Response) : Async Response :=
  let nonCustomNorInheritShifts := List.filter isLiteralShift shiftsArray in
  let customOrInheritShifts := List.filter isRelativeShift shiftsArray in
  let dates :=
    match value res with
    | Some v => matchDefaultDatePattern v
    | None => None
    end in
  let parsedStartDate := nth_error (Js.nullish dates []) 0 in
  let parsedEndDate := nth_error (Js.nullish dates []) 1 in
  if Js.truthy parsedStartDate then
    let parsedDateDayjs := extendedDayjs (parseDttmToDate parsedStartDate) in
    let startDateDayjs := extendedDayjs (parseDttmToDate startDate) in
    if isSameOrBefore startDateDayjs parsedDateDayjs || negb (Js.truthy startDate) then
      let postProcessedShifts :=
        getTimeOffset
          {| TimeOffset.timeRangeFilter :=
               withComparator filter
                 (Js.interpolate parsedStartDate ++ " : " ++ Js.interpolate parsedEndDate);
             TimeOffset.shifts := customOrInheritShifts;
             TimeOffset.startDate := useStartDate;
             TimeOffset.includeFutureOffsets := false |} in
      fetch (comparator filter) (subject filter)
        (Some (postProcessedShifts ++ nonCustomNorInheritShifts)%list)
    else Async.resolve {| value := Some "" |}
  else Async.resolve {| value := Some "" |}.

(** The body of [currentTimeRangeFilters.map(filter => ...)]. *)
Definition resolveFilter (shiftsArray : list string) (startDate useStartDate : option string)
  (filter : BinaryAdhocFilter) : Async Response :=
  let nonCustomNorInheritShifts := List.filter isLiteralShift shiftsArray in
  let customOrInheritShifts := List.filter isRelativeShift shiftsArray in
  if Js.isEmpty customOrInheritShifts then
    fetch (comparator filter) (subject filter) (Some nonCustomNorInheritShifts)
  else if (Js.includes "custom" customOrInheritShifts && Js.truthy startDate)
          || Js.includes "inherit" customOrInheritShifts then
    fetch (comparator filter) (subject filter) None
      >>then onOwnRange shiftsArray startDate useStartDate filter
  else Async.resolve {| value := Some "" |}.

(** [useStartDate]: the explicit start date or, without one, the start
    of the previous custom filter's range. *)
Definition useStartDate (formData : FormData) : option string :=
  if negb (Js.truthy (startDate formData))
     && negb (Js.isEmptyOpt (previousCustomFilter formData)) then
    match previousCustomFilter formData with
    | Some (first :: _) =>
        let start := nth_error (Js.split " : " (comparator first)) 0 in
        Some (format (extendedDayjs (parseDttmToDate start)) DAYJS_FORMAT)
    | _ => startDate formData
    end
  else startDate formData.

(** [const promises = currentTimeRangeFilters.map(...)]. *)
Definition promises (formData : FormData) : list (Async Response) :=
  map (resolveFilter (Js.ensureIsArray (shifts formData)) (startDate formData)
         (useStartDate formData))
      (currentTimeRangeFilters formData).

(** The callback of [Promise.all(promises).then(...)]. *)
Definition labelsOf (res : list Response) : list string :=
  map (fun r => Js.nullish (value r) "") res.

(** The condition of the first branch of the effect. *)
Definition labelsCleared (formData : FormData) : bool :=
  let shiftsArray := Js.ensureIsArray (shifts formData) in
  Js.isEmpty (currentTimeRangeFilters formData)
  || (Js.isEmpty shiftsArray && negb (Js.truthy (startDate formData))).

(** The condition of its second branch. *)
Definition batchStarted (formData : FormData) : bool :=
  negb (Js.isEmptyOpt (shifts formData)) || Js.truthy (startDate formData).

(** The effect. *)
Definition useEffect (formData : FormData) : EffectResult :=
  if labelsCleared formData then
    {| requests := []; setLabels := Some [] |}
  else if batchStarted formData then
    {| requests := map fst (promises formData);
       setLabels :=
         match Async.all (map snd (promises formData)) with
         | Resolved res => Some (labelsOf res)
         | Rejected => None
         end |}
  else {| requests := []; setLabels := None |}.

End Component.

(** ** Rendering *)

(** The elements the component returns. *)
#[warnings="-register-all"]
Inductive Element : Type :=
| ControlHeader (label : string)
| Div (key text : string)
| Fragment (children : list Element).

(** An entry of the array that [labels.flat()] flattens: a string stays
    one entry, an array of strings gives its elements. *)
Class LabelEntry (L : Type) : Type := entryTexts : L -> list string.

#[export] Instance stringEntry : LabelEntry string := fun text => [text].

#[export] Instance arrayEntry : LabelEntry (list string) := fun entries => entries.

(** [labels.flat()], one level deep. *)
Definition flat {L : Type} {entry : LabelEntry L} (labels : list L) : list string :=
  flat_map entryTexts labels.

(** What the component returns; [t] is the translation function. *)
Definition render {L : Type} {entry : LabelEntry L} (t : string -> string)
  (labels : list L) : option Element :=
  if negb (Nat.eqb (List.length labels) 0) then
    Some (Fragment
            (ControlHeader (t "Actual range for comparison")
             :: map (fun label => Fragment [Div label label]) (flat labels)))
  else None.




(** ** A concrete environment

    A small implementation of the imported functions, used to run the
    component on examples: dates are ISO strings compared as text, the
    service echoes its request and rejects requests on the column
    ["broken"]. *)

Module Demo.

Definition isDigit (c : ascii) : bool :=
  Nat.leb 48 (nat_of_ascii c) && Nat.leb (nat_of_ascii c) 57.

(** [true] stands for a digit, [false] for a dash. *)
Fixpoint hasShape (shape : list bool) (s : string) : bool :=
  match shape, s with
  | [], _ => true
  | _ :: _, EmptyString => false
  | true :: shape', String c rest => isDigit c && hasShape shape' rest
  | false :: shape', String c rest => Ascii.eqb c "-"%char && hasShape shape' rest
  end.

Definition isoDateShape : list bool :=
  [true; true; true; true; false; true; true; false; true; true].

(** All the substrings of the form dddd-dd-dd, left to right. *)
Fixpoint scanDates (skip : nat) (s : string) : list string :=
  match s with
  | EmptyString => []
  | String c rest =>
      match skip with
      | S k => scanDates k rest
      | O =>
          if hasShape isoDateShape s
          then String.substring 0 10 s :: scanDates 9 rest
          else scanDates 0 rest
      end
  end.

Definition matchDates (s : string) : option (list string) :=
  match scanDates 0 s with
  | [] => None
  | l => Some l
  end.

Definition sameOrBefore (a b : option string) : bool :=
  match a, b with
  | Some x, Some y => String.leb x y
  | _, _ => false
  end.

Definition service (timeRange columnName : string) (shiftList : option (list string))
  : Promise Response :=
  if columnName =? "broken" then Rejected
  else
    Resolved
      {| value :=
           Some (match shiftList with
                 | None => columnName ++ " (" ++ timeRange ++ ")"
                 | Some l => columnName ++ " (" ++ timeRange ++ ") " ++ String.concat ", " l
                 end) |}.

Definition offsets (o : TimeOffset.Options) : list string :=
  map (fun shift =>
         shift ++ " from " ++ Js.interpolate (TimeOffset.startDate o)
         ++ " to " ++ comparator (TimeOffset.timeRangeFilter o)
         ++ (if TimeOffset.includeFutureOffsets o then " and later" else ""))
      (TimeOffset.shifts o).

#[local] Instance externals : Externals := {|
  DateT := option string;
  Dayjs := option string;
  fetchTimeRange := service;
  getTimeOffset := offsets;
  parseDttmToDate := fun s => s;
  extendedDayjs := fun d => d;
  format := fun d _ => match d with Some s => s | None => "Invalid Date" end;
  isSameOrBefore := sameOrBefore;
  matchDefaultDatePattern := matchDates
|}.

Definition january : BinaryAdhocFilter :=
  {| operator := "TEMPORAL_RANGE"; subject := "ds";
     comparator := "2024-01-01 : 2024-02-01" |}.

Definition country : BinaryAdhocFilter :=
  {| operator := "=="; subject := "country"; comparator := "FR" |}.

Definition brokenRange : BinaryAdhocFilter :=
  {| operator := "TEMPORAL_RANGE"; subject := "broken";
     comparator := "2024-03-01 : 2024-04-01" |}.

Definition december : BinaryAdhocFilter :=
  {| operator := "TEMPORAL_RANGE"; subject := "ds";
     comparator := "2023-12-01 : 2023-12-31" |}.

(** [time_compare = ["1 week ago"]], one temporal filter. *)
Definition weekAgo : FormData :=
  {| adhoc_filters := [country; january]; adhoc_custom := None;
     time_compare := Some ["1 week ago"]; time_comparison := None;
     start_date_offset := None |}.

(** One temporal filter, no shift at all, no start date. *)
Definition noShifts : FormData :=
  {| adhoc_filters := [january]; adhoc_custom := None;
     time_compare := Some []; time_comparison := None;
     start_date_offset := None |}.

(** Only the legacy field is set. *)
Definition legacyYear : FormData :=
  {| adhoc_filters := [january]; adhoc_custom := None;
     time_compare := None; time_comparison := Some "y";
     start_date_offset := None |}.

(** [inherit] next to a literal shift, with a previous custom filter. *)
Definition inheritAndYear : FormData :=
  {| adhoc_filters := [january]; adhoc_custom := Some [country; december];
     time_compare := Some ["inherit"; "1 year ago"]; time_comparison := None;
     start_date_offset := None |}.


(** [custom] with a start date before the start of the filter's range. *)
Definition customEarly : FormData :=
  {| adhoc_filters := [january]; adhoc_custom := None;
     time_compare := Some ["custom"; "1 week ago"]; time_comparison := None;
     start_date_offset := Some "2023-11-01" |}.

(** [custom] without a start date. *)
Definition customAlone : FormData :=
  {| adhoc_filters := [january; december]; adhoc_custom := None;
     time_compare := Some ["custom"; "1 year ago"]; time_comparison := None;
     start_date_offset := None |}.

(** Two temporal filters, the second on a column the service rejects. *)
Definition oneBroken : FormData :=
  {| adhoc_filters := [january; brokenRange]; adhoc_custom := None;
     time_compare := Some ["1 week ago"]; time_comparison := None;
     start_date_offset := None |}.

(** A start date and no shift. *)
Definition startDateOnly : FormData :=
  {| adhoc_filters := [january; december]; adhoc_custom := None;
     time_compare := None; time_comparison := None;
     start_date_offset := Some "2023-11-01" |}.

Definition lastWeek : BinaryAdhocFilter :=
  {| operator := "TEMPORAL_RANGE"; subject := "ds"; comparator := "Last week" |}.

(** [inherit] on a column the service rejects. *)
Definition brokenInherit : FormData :=
  {| adhoc_filters := [january; brokenRange]; adhoc_custom := None;
     time_compare := Some ["inherit"]; time_comparison := None;
     start_date_offset := None |}.

(** [inherit] on a range whose answer holds no date, with a previous
    custom filter whose comparator has no separator. *)
Definition inheritLastWeek : FormData :=
  {| adhoc_filters := [lastWeek]; adhoc_custom := Some [lastWeek];
     time_compare := Some ["inherit"; "1 week ago"]; time_comparison := None;
     start_date_offset := None |}.

(** A legacy code that is not one of the old choices. *)
Definition legacyUnknown : FormData :=
  {| adhoc_filters := [january]; adhoc_custom := None;
     time_compare := None; time_comparison := Some "toString";
     start_date_offset := None |}.

(** [customEarly] with other filters and another legacy field. *)
Definition customEarlyAgain : FormData :=
  {| adhoc_filters := [january; country]; adhoc_custom := Some [december];
     time_compare := Some ["custom"; "1 week ago"]; time_comparison := Some "y";
     start_date_offset := Some "2023-11-01" |}.

End Demo.

(** ** Facts about the JavaScript helpers *)

Lemma prefix_app_self (sep b : string) : String.prefix sep (sep ++ b) = true.
Proof.
  induction sep as [|c sep IH]; simpl.
  - destruct b; reflexivity.
  - destruct (ascii_dec c c); [exact IH | congruence].
Qed.

Lemma string_app_assoc (a b c : string) : (a ++ b) ++ c = a ++ (b ++ c).
Proof.
  induction a as [|ch a IH]; simpl; [reflexivity | now rewrite IH].
Qed.

(** The first piece of a split is the text before the first separator. *)
Lemma splitFrom_head (sep a b cur : string) :
  sep <> "" ->
  Js.sepFree sep a (sep ++ b) = true ->
  exists rest, Js.splitFrom sep 0 cur (a ++ sep ++ b) = (cur ++ a) :: rest.
Proof.
  intros Hsep. revert cur.
  induction a as [|ch a IH]; intros cur Hfree.
  - destruct sep as [|c sep']; [congruence|].
    change ("" ++ String c sep' ++ b) with (String c (sep' ++ b)).
    cbn [Js.splitFrom].
    change (String c (sep' ++ b)) with (String c sep' ++ b).
    rewrite prefix_app_self.
    eexists. f_equal.
    clear. induction cur as [|x cur IH]; simpl; [reflexivity | now f_equal].
  - cbn [Js.sepFree] in Hfree. apply andb_true_iff in Hfree as [Hno Hfree].
    apply negb_true_iff in Hno.
    change (String ch a ++ sep ++ b) with (String ch (a ++ sep ++ b)) in *.
    cbn [Js.splitFrom]. rewrite Hno.
    destruct (IH (cur ++ String ch "") Hfree) as [rest Hrest].
    exists rest. rewrite Hrest. f_equal.
    now rewrite string_app_assoc.
Qed.

Lemma split_first (sep a b : string) :
  sep <> "" ->
  Js.sepFree sep a (sep ++ b) = true ->
  nth_error (Js.split sep (a ++ sep ++ b)) 0 = Some a.
Proof.
  intros Hsep Hfree. unfold Js.split.
  destruct (splitFrom_head sep a b "" Hsep Hfree) as [rest ->].
  reflexivity.
Qed.

Lemma truthy_some (s : string) : s <> "" -> Js.truthy (Some s) = true.
Proof.
  intros H. simpl. apply negb_true_iff. now apply String.eqb_neq.
Qed.

Lemma isEmpty_false {A : Type} (l : list A) : l <> [] -> Js.isEmpty l = false.
Proof. destruct l; [congruence | reflexivity]. Qed.

Lemma isEmptyOpt_ensureIsArray {A : Type} (v : option (list A)) :
  Js.isEmptyOpt v = Js.isEmpty (Js.ensureIsArray v).
Proof. destruct v; reflexivity. Qed.

(** ** Facts about the two classes of shifts *)

Lemma relative_not_literal (shift : string) :
  isRelativeShift shift = negb (isLiteralShift shift).
Proof.
  unfold isRelativeShift, isLiteralShift.
  destruct (shift =? "custom"), (shift =? "inherit"); reflexivity.
Qed.

Lemma only_literal_shifts (l : list string) :
  forallb isLiteralShift l = true ->
  List.filter isRelativeShift l = [] /\ List.filter isLiteralShift l = l.
Proof.
  induction l as [|x l IH]; simpl; intros H; [split; reflexivity|].
  apply andb_true_iff in H as [Hx Hl]. destruct (IH Hl) as [IH1 IH2].
  rewrite relative_not_literal, Hx. simpl. rewrite IH1, IH2. split; reflexivity.
Qed.

Lemma includes_relative (x : string) (l : list string) :
  isRelativeShift x = true ->
  Js.includes x (List.filter isRelativeShift l) = Js.includes x l.
Proof.
  intros Hx. unfold Js.includes.
  induction l as [|y l IH]; simpl; [reflexivity|].
  destruct (isRelativeShift y) eqn:Hy; simpl.
  - now rewrite IH.
  - rewrite IH. destruct (String.eqb_spec x y) as [->|]; [congruence | reflexivity].
Qed.

Lemma includes_not_empty (x : string) (l : list string) :
  Js.includes x l = true -> Js.isEmpty l = false.
Proof. destruct l; simpl; [discriminate | reflexivity]. Qed.

(** ** Facts about [Promise.all] *)

Lemma all_resolved_map {A : Type} (rs : list A) :
  Async.all (map Resolved rs) = Resolved rs.
Proof.
  induction rs as [|r rs IH]; simpl; [reflexivity | now rewrite IH].
Qed.

Lemma all_resolved_inv {A : Type} (ps : list (Promise A)) (rs : list A) :
  Async.all ps = Resolved rs -> ps = map Resolved rs.
Proof.
  revert rs. induction ps as [|p ps IH]; simpl; intros rs H.
  - injection H as <-. reflexivity.
  - destruct p as [a|]; [|discriminate].
    destruct (Async.all ps) as [l|]; [|discriminate].
    injection H as <-. simpl. now rewrite (IH l eq_refl).
Qed.

Lemma all_rejected {A : Type} (ps : list (Promise A)) :
  In Rejected ps -> Async.all ps = Rejected.
Proof.
  induction ps as [|p ps IH]; simpl; [tauto|].
  intros [->|Hin]; [reflexivity|].
  destruct p; [|reflexivity]. now rewrite (IH Hin).
Qed.

(** ** Facts about the component *)

Section Properties.

Context {ext : Externals}.

Lemma batchStarted_when_not_cleared (formData : FormData) :
  labelsCleared formData = false -> batchStarted formData = true.
Proof.
  unfold labelsCleared, batchStarted. rewrite isEmptyOpt_ensureIsArray.
  destruct (Js.isEmpty (currentTimeRangeFilters formData)),
           (Js.isEmpty (Js.ensureIsArray (shifts formData))),
           (Js.truthy (startDate formData)); simpl; congruence.
Qed.

Lemma not_cleared (formData : FormData) :
  currentTimeRangeFilters formData <> [] ->
  Js.ensureIsArray (shifts formData) <> [] \/ Js.truthy (startDate formData) = true ->
  labelsCleared formData = false.
Proof.
  intros Hf Hs. unfold labelsCleared. rewrite (isEmpty_false _ Hf). simpl.
  destruct Hs as [Hs|Hs].
  - now rewrite (isEmpty_false _ Hs).
  - rewrite Hs. apply andb_false_r.
Qed.

Lemma useEffect_batch (formData : FormData) :
  labelsCleared formData = false ->
  useEffect formData =
    {| requests := map fst (promises formData);
       setLabels :=
         match Async.all (map snd (promises formData)) with
         | Resolved res => Some (labelsOf res)
         | Rejected => None
         end |}.
Proof.
  intros H. unfold useEffect. now rewrite H, (batchStarted_when_not_cleared _ H).
Qed.

(** The requests sent for the filter at position [i]. *)
Lemma requests_of_filter (formData : FormData) (i : nat) (filter : BinaryAdhocFilter) :
  labelsCleared formData = false ->
  nth_error (currentTimeRangeFilters formData) i = Some filter ->
  nth_error (requests (useEffect formData)) i =
    Some (fst (resolveFilter (Js.ensureIsArray (shifts formData)) (startDate formData)
                 (useStartDate formData) filter)).
Proof.
  intros Hc Hi. rewrite (useEffect_batch _ Hc). simpl. unfold promises.
  rewrite map_map, nth_error_map, Hi. reflexivity.
Qed.

(** The label stored for the filter at position [i]. *)
Lemma label_of_filter (formData : FormData) (i : nat) (filter : BinaryAdhocFilter)
  (labels : list string) :
  labelsCleared formData = false ->
  nth_error (currentTimeRangeFilters formData) i = Some filter ->
  setLabels (useEffect formData) = Some labels ->
  exists r,
    snd (resolveFilter (Js.ensureIsArray (shifts formData)) (startDate formData)
           (useStartDate formData) filter) = Resolved r
    /\ nth_error labels i = Some (Js.nullish (value r) "").
Proof.
  intros Hc Hi. rewrite (useEffect_batch _ Hc). simpl.
  destruct (Async.all (map snd (promises formData))) as [res|] eqn:Hall; [|discriminate].
  intros [= <-]. apply all_resolved_inv in Hall.
  assert (Hp : nth_error (map snd (promises formData)) i =
               Some (snd (resolveFilter (Js.ensureIsArray (shifts formData))
                            (startDate formData) (useStartDate formData) filter))).
  { unfold promises. rewrite map_map, nth_error_map, Hi. reflexivity. }
  rewrite Hall, nth_error_map in Hp.
  destruct (nth_error res i) as [r|] eqn:Hr; [|discriminate].
  injection Hp as Hp. exists r. split; [now rewrite <- Hp|].
  unfold labelsOf. now rewrite nth_error_map, Hr.
Qed.

Lemma resolveFilter_direct (shiftsArray : list string) (start useStart : option string)
  (filter : BinaryAdhocFilter) :
  List.filter isRelativeShift shiftsArray = [] ->
  resolveFilter shiftsArray start useStart filter =
    fetch (comparator filter) (subject filter) (Some (List.filter isLiteralShift shiftsArray)).
Proof. intros H. unfold resolveFilter. now rewrite H. Qed.

Lemma resolveFilter_idle (shiftsArray : list string) (start useStart : option string)
  (filter : BinaryAdhocFilter) :
  Js.includes "custom" shiftsArray = true ->
  Js.includes "inherit" shiftsArray = false ->
  Js.truthy start = false ->
  resolveFilter shiftsArray start useStart filter = Async.resolve {| value := Some "" |}.
Proof.
  intros Hc Hi Hs. unfold resolveFilter.
  rewrite !includes_relative by reflexivity. rewrite Hc, Hi, Hs. simpl.
  rewrite <- (includes_relative "custom") in Hc by reflexivity.
  now rewrite (includes_not_empty _ _ Hc).
Qed.

Lemma resolveFilter_relative (shiftsArray : list string) (start useStart : option string)
  (filter : BinaryAdhocFilter) (res : Response) :
  (Js.includes "custom" shiftsArray && Js.truthy start) || Js.includes "inherit" shiftsArray = true ->
  fetchTimeRange (comparator filter) (subject filter) None = Resolved res ->
  resolveFilter shiftsArray start useStart filter =
    (mkFetchCall (comparator filter) (subject filter) None
       :: fst (onOwnRange shiftsArray start useStart filter res),
     snd (onOwnRange shiftsArray start useStart filter res)).
Proof.
  intros Hrel Hres. unfold resolveFilter.
  rewrite !includes_relative by reflexivity. rewrite Hrel.
  assert (Hne : Js.isEmpty (List.filter isRelativeShift shiftsArray) = false).
  { apply orb_true_iff in Hrel as [H|H].
    - apply andb_true_iff in H as [H _].
      rewrite <- (includes_relative "custom") in H by reflexivity.
      exact (includes_not_empty _ _ H).
    - rewrite <- (includes_relative "inherit") in H by reflexivity.
      exact (includes_not_empty _ _ H). }
  rewrite Hne. unfold Async.andThen, fetch. simpl. rewrite Hres. reflexivity.
Qed.

(** The continuation when the gate on the start date is passed. *)
Lemma onOwnRange_offsets (shiftsArray : list string) (start useStart : option string)
  (filter : BinaryAdhocFilter) (res : Response) (v : string) (dates : list string)
  (parsedStartDate : string) :
  value res = Some v ->
  matchDefaultDatePattern v = Some dates ->
  nth_error dates 0 = Some parsedStartDate ->
  parsedStartDate <> "" ->
  isSameOrBefore (extendedDayjs (parseDttmToDate start))
                 (extendedDayjs (parseDttmToDate (Some parsedStartDate)))
    || negb (Js.truthy start) = true ->
  onOwnRange shiftsArray start useStart filter res =
    fetch (comparator filter) (subject filter)
      (Some (getTimeOffset
               {| TimeOffset.timeRangeFilter :=
                    withComparator filter
                      (parsedStartDate ++ " : " ++ Js.interpolate (nth_error dates 1));
                  TimeOffset.shifts := List.filter isRelativeShift shiftsArray;
                  TimeOffset.startDate := useStart;
                  TimeOffset.includeFutureOffsets := false |}
             ++ List.filter isLiteralShift shiftsArray)%list).
Proof.
  intros Hv Hm Hd Hne Hgate. unfold onOwnRange.
  rewrite Hv, Hm. cbn [Js.nullish]. rewrite Hd, (truthy_some _ Hne), Hgate.
  reflexivity.
Qed.


(** The label stored for the filter at position [i] when every promise
    of the batch resolved. *)
Lemma stored_label_of_filter (formData : FormData) (i : nat) (filter : BinaryAdhocFilter)
  (res : list Response) (labels : list string) :
  labelsCleared formData = false ->
  nth_error (currentTimeRangeFilters formData) i = Some filter ->
  Async.all (map snd (promises formData)) = Resolved res ->
  exists r,
    snd (resolveFilter (Js.ensureIsArray (shifts formData)) (startDate formData)
           (useStartDate formData) filter) = Resolved r
    /\ nth_error (labelsAfter labels (useEffect formData)) i
       = Some (Js.nullish (value r) "").
Proof.
  intros Hc Hi Hall.
  assert (Hset : setLabels (useEffect formData) = Some (labelsOf res)).
  { rewrite (useEffect_batch _ Hc). simpl. now rewrite Hall. }
  destruct (label_of_filter _ _ _ _ Hc Hi Hset) as [r [Hr Hl]].
  exists r. unfold labelsAfter. rewrite Hset. split; [exact Hr | exact Hl].
Qed.

End Properties.

(** ** The specification, claim by claim *)

Section Specification.

Context {ext : Externals}.

(** C1.  With at least one active temporal filter and a shift list that
    holds literal shifts only (no "custom", no "inherit"; an empty list
    counts when an explicit start date makes the effect run), the
    effect sends, for each filter, exactly one request, with the
    filter's comparator, its subject and exactly the shift list, and
    the labels it stores are read from the answers to those requests:
    the label of a filter is the value the service returned for it. *)
Theorem literal_shifts_resolve_directly (formData : FormData) :
  currentTimeRangeFilters formData <> [] ->
  forallb isLiteralShift (Js.ensureIsArray (shifts formData)) = true ->
  Js.ensureIsArray (shifts formData) <> [] \/ Js.truthy (startDate formData) = true ->
  useEffect formData =
    {| requests :=
         map (fun filter =>
                [mkFetchCall (comparator filter) (subject filter)
                   (Some (Js.ensureIsArray (shifts formData)))])
             (currentTimeRangeFilters formData);
       setLabels :=
         match
           Async.all
             (map (fun filter =>
                     fetchTimeRange (comparator filter) (subject filter)
                       (Some (Js.ensureIsArray (shifts formData))))
                  (currentTimeRangeFilters formData))
         with
         | Resolved res => Some (map (fun r => Js.nullish (value r) "") res)
         | Rejected => None
         end |}
  /\ (forall filter : BinaryAdhocFilter,
        resolveFilter (Js.ensureIsArray (shifts formData)) (startDate formData)
          (useStartDate formData) filter
        = ([mkFetchCall (comparator filter) (subject filter)
              (Some (Js.ensureIsArray (shifts formData)))],
           fetchTimeRange (comparator filter) (subject filter)
             (Some (Js.ensureIsArray (shifts formData)))))
  /\ forall (returned labels : list string),
       map (fun filter =>
              fetchTimeRange (comparator filter) (subject filter)
                (Some (Js.ensureIsArray (shifts formData))))
           (currentTimeRangeFilters formData)
       = map (fun v => Resolved {| value := Some v |}) returned ->
       labelsAfter labels (useEffect formData) = returned.
Proof.
  intros Hf Hlit Hgo.
  destruct (only_literal_shifts _ Hlit) as [Hrel Hsame].
  assert (Hdirect : forall filter : BinaryAdhocFilter,
            resolveFilter (Js.ensureIsArray (shifts formData)) (startDate formData)
              (useStartDate formData) filter
            = ([mkFetchCall (comparator filter) (subject filter)
                  (Some (Js.ensureIsArray (shifts formData)))],
               fetchTimeRange (comparator filter) (subject filter)
                 (Some (Js.ensureIsArray (shifts formData))))).
  { intros filter. now rewrite (resolveFilter_direct _ _ _ _ Hrel), Hsame. }
  assert (Hrun : useEffect formData =
            {| requests :=
                 map (fun filter =>
                        [mkFetchCall (comparator filter) (subject filter)
                           (Some (Js.ensureIsArray (shifts formData)))])
                     (currentTimeRangeFilters formData);
               setLabels :=
                 match
                   Async.all
                     (map (fun filter =>
                             fetchTimeRange (comparator filter) (subject filter)
                               (Some (Js.ensureIsArray (shifts formData))))
                          (currentTimeRangeFilters formData))
                 with
                 | Resolved res => Some (map (fun r => Js.nullish (value r) "") res)
                 | Rejected => None
                 end |}).
  { rewrite (useEffect_batch _ (not_cleared _ Hf Hgo)). unfold promises.
    rewrite !map_map.
    rewrite (map_ext _ _ (fun a => f_equal fst (Hdirect a))).
    rewrite (map_ext _ _ (fun a => f_equal snd (Hdirect a))).
    reflexivity. }
  split; [exact Hrun|]. split; [exact Hdirect|].
  intros returned labels Hret. unfold labelsAfter. rewrite Hrun. simpl.
  rewrite Hret, <- (map_map (fun v => {| value := Some v |}) Resolved).
  rewrite all_resolved_map, map_map. simpl. now rewrite map_id.
Qed.

(** C5.  Without an active temporal filter, or without any shift and
    without an explicit start date, the effect sets the labels to the
    empty list and sends no request. *)
Theorem nothing_to_compare_clears_labels (formData : FormData) (labels : list string) :
  currentTimeRangeFilters formData = []
  \/ (Js.ensureIsArray (shifts formData) = [] /\ Js.truthy (startDate formData) = false) ->
  useEffect formData = {| requests := []; setLabels := Some [] |}
  /\ labelsAfter labels (useEffect formData) = [].
Proof.
  intros H.
  assert (Hc : labelsCleared formData = true).
  { unfold labelsCleared. destruct H as [-> | [-> ->]]; [reflexivity|].
    apply orb_true_r. }
  unfold labelsAfter, useEffect. rewrite Hc. split; reflexivity.
Qed.

(** C6.  When [time_compare] is absent, the legacy code ["y"] gives the
    shift list [["1 year ago"]], and the codes r, y, m, w, c give
    "inherit", "1 year ago", "1 month ago", "1 week ago", "custom"; when
    [time_compare] is present it is the shift list, whatever the legacy
    field holds. *)
Theorem legacy_codes_only_without_time_compare (formData : FormData) :
  (time_compare formData = None -> time_comparison formData = Some "y" ->
   Js.ensureIsArray (shifts formData) = ["1 year ago"])
  /\ (forall code tag : string,
        In (code, tag)
           [("r", "inherit"); ("y", "1 year ago"); ("m", "1 month ago");
            ("w", "1 week ago"); ("c", "custom")] ->
        time_compare formData = None -> time_comparison formData = Some code ->
        shifts formData = Some [tag])
  /\ (forall tags : list string,
        time_compare formData = Some tags -> shifts formData = Some tags).
Proof.
  split; [|split].
  - intros Hm Hl. unfold shifts. now rewrite Hm, Hl.
  - intros code tag Hin Hm Hl. unfold shifts. rewrite Hm, Hl.
    simpl in Hin.
    repeat (destruct Hin as [[= <- <-] | Hin]; [reflexivity|]).
    contradiction.
  - intros tags Hm. unfold shifts. now rewrite Hm.
Qed.

(** C7.  Once the effect has started a batch, the rejection of one of
    its promises means that [setLabels] is not called: the labels stay
    what they were. *)
Theorem rejected_resolution_keeps_labels (formData : FormData) (labels : list string)
  (p : Async Response) :
  labelsCleared formData = false ->
  In p (promises formData) ->
  snd p = Rejected ->
  setLabels (useEffect formData) = None
  /\ labelsAfter labels (useEffect formData) = labels.
Proof.
  intros Hc Hin Hrej.
  assert (Hnone : setLabels (useEffect formData) = None).
  { rewrite (useEffect_batch _ Hc). simpl.
    rewrite all_rejected; [reflexivity|].
    rewrite <- Hrej. now apply in_map. }
  split; [exact Hnone|]. unfold labelsAfter. now rewrite Hnone.
Qed.

(** C8.  When every promise of a batch resolves, the labels are replaced
    by the values of the results, missing values read as the empty
    string: one label per active temporal filter, in the order of the
    filters, whatever the labels were before. *)
Theorem successful_batch_replaces_labels (formData : FormData) (labels : list string)
  (res : list Response) :
  labelsCleared formData = false ->
  Async.all (map snd (promises formData)) = Resolved res ->
  labelsAfter labels (useEffect formData) = map (fun r => Js.nullish (value r) "") res
  /\ length (labelsAfter labels (useEffect formData))
     = length (currentTimeRangeFilters formData)
  /\ forall (i : nat) (filter : BinaryAdhocFilter),
       nth_error (currentTimeRangeFilters formData) i = Some filter ->
       exists r,
         snd (resolveFilter (Js.ensureIsArray (shifts formData)) (startDate formData)
                (useStartDate formData) filter) = Resolved r
         /\ nth_error (labelsAfter labels (useEffect formData)) i
            = Some (Js.nullish (value r) "").
Proof.
  intros Hc Hall.
  assert (Hset : setLabels (useEffect formData) = Some (labelsOf res)).
  { rewrite (useEffect_batch _ Hc). simpl. now rewrite Hall. }
  assert (Hafter : labelsAfter labels (useEffect formData) = labelsOf res).
  { unfold labelsAfter. now rewrite Hset. }
  rewrite Hafter. split; [reflexivity|]. split.
  - apply all_resolved_inv in Hall.
    apply (f_equal (@length _)) in Hall.
    unfold promises in Hall. rewrite !length_map in Hall.
    unfold labelsOf. now rewrite length_map.
  - intros i filter Hi. exact (label_of_filter _ _ _ _ Hc Hi Hset).
Qed.

(** C2.  For a filter of a form whose shifts contain "inherit": when the
    request for the filter's own range is answered with a value in
    which the date pattern finds a start date, and the explicit start
    date, if there is one, is on or before that date, the effect calls
    [getTimeOffset] with [includeFutureOffsets = false], appends the
    literal shifts to its result, sends a second request with that
    shift list, and the filter's label is the value of the answer to
    that second request. *)
Theorem inherit_is_offset_then_refetched (formData : FormData) (i : nat)
  (filter : BinaryAdhocFilter) (res : Response) (v : string) (dates : list string)
  (parsedStartDate : string) (combined : list string) :
  nth_error (currentTimeRangeFilters formData) i = Some filter ->
  Js.includes "inherit" (Js.ensureIsArray (shifts formData)) = true ->
  fetchTimeRange (comparator filter) (subject filter) None = Resolved res ->
  value res = Some v ->
  matchDefaultDatePattern v = Some dates ->
  nth_error dates 0 = Some parsedStartDate ->
  parsedStartDate <> "" ->
  (Js.truthy (startDate formData) = true ->
   isSameOrBefore (extendedDayjs (parseDttmToDate (startDate formData)))
                  (extendedDayjs (parseDttmToDate (Some parsedStartDate))) = true) ->
  combined =
    (getTimeOffset
       {| TimeOffset.timeRangeFilter :=
            withComparator filter
              (parsedStartDate ++ " : " ++ Js.interpolate (nth_error dates 1));
          TimeOffset.shifts :=
            List.filter isRelativeShift (Js.ensureIsArray (shifts formData));
          TimeOffset.startDate := useStartDate formData;
          TimeOffset.includeFutureOffsets := false |}
     ++ List.filter isLiteralShift (Js.ensureIsArray (shifts formData)))%list ->
  resolveFilter (Js.ensureIsArray (shifts formData)) (startDate formData)
    (useStartDate formData) filter
  = ([mkFetchCall (comparator filter) (subject filter) None;
      mkFetchCall (comparator filter) (subject filter) (Some combined)],
     fetchTimeRange (comparator filter) (subject filter) (Some combined))
  /\ nth_error (requests (useEffect formData)) i =
       Some [mkFetchCall (comparator filter) (subject filter) None;
             mkFetchCall (comparator filter) (subject filter) (Some combined)]
  /\ forall (res : list Response) (labels : list string),
       Async.all (map snd (promises formData)) = Resolved res ->
       exists answer,
         fetchTimeRange (comparator filter) (subject filter) (Some combined)
         = Resolved answer
         /\ nth_error (labelsAfter labels (useEffect formData)) i
            = Some (Js.nullish (value answer) "").
Proof.
  intros Hi Hinh Hres Hv Hm Hd Hne Hgate ->.
  assert (Hf : currentTimeRangeFilters formData <> []).
  { intros E. rewrite E in Hi. destruct i; discriminate. }
  assert (Hs : Js.ensureIsArray (shifts formData) <> []).
  { intros E. rewrite E in Hinh. discriminate. }
  pose proof (not_cleared _ Hf (or_introl Hs)) as Hc.
  assert (Hgate' :
            isSameOrBefore (extendedDayjs (parseDttmToDate (startDate formData)))
              (extendedDayjs (parseDttmToDate (Some parsedStartDate)))
            || negb (Js.truthy (startDate formData)) = true).
  { destruct (Js.truthy (startDate formData)); [|apply orb_true_r].
    now rewrite Hgate. }
  assert (Hrel : (Js.includes "custom" (Js.ensureIsArray (shifts formData))
                  && Js.truthy (startDate formData))
                 || Js.includes "inherit" (Js.ensureIsArray (shifts formData)) = true).
  { rewrite Hinh. apply orb_true_r. }
  pose proof (resolveFilter_relative _ (startDate formData) (useStartDate formData)
                filter res Hrel Hres) as Hrf.
  rewrite (onOwnRange_offsets _ _ _ _ _ _ _ _ Hv Hm Hd Hne Hgate') in Hrf.
  simpl in Hrf. split; [exact Hrf|]. split.
  - rewrite (requests_of_filter _ _ _ Hc Hi), Hrf. reflexivity.
  - intros batch labels Hall.
    destruct (stored_label_of_filter _ _ _ _ labels Hc Hi Hall) as [r [Hr Hl]].
    rewrite Hrf in Hr. exists r. split; [exact Hr | exact Hl].
Qed.


(** C4.  When the shifts contain "custom" but not "inherit" and no
    explicit start date is set, no request at all is sent for any
    filter, each filter's promise resolves to the empty value, and the
    effect stores the empty string as the label of every filter. *)
Theorem custom_without_start_date_gives_empty_labels (formData : FormData) :
  Js.includes "custom" (Js.ensureIsArray (shifts formData)) = true ->
  Js.includes "inherit" (Js.ensureIsArray (shifts formData)) = false ->
  Js.truthy (startDate formData) = false ->
  (forall filter : BinaryAdhocFilter,
     resolveFilter (Js.ensureIsArray (shifts formData)) (startDate formData)
       (useStartDate formData) filter
     = ([], Resolved {| value := Some "" |}))
  /\ useEffect formData =
       {| requests := map (fun _ => []) (currentTimeRangeFilters formData);
          setLabels := Some (map (fun _ => "") (currentTimeRangeFilters formData)) |}.
Proof.
  intros Hcus Hinh Hstart.
  assert (Hidle : forall filter : BinaryAdhocFilter,
            resolveFilter (Js.ensureIsArray (shifts formData)) (startDate formData)
              (useStartDate formData) filter
            = ([], Resolved {| value := Some "" |})).
  { intros filter. now rewrite (resolveFilter_idle _ _ _ _ Hcus Hinh Hstart). }
  split; [exact Hidle|].
  destruct (currentTimeRangeFilters formData) as [|f fs] eqn:Hf.
  - unfold useEffect, labelsCleared. now rewrite Hf.
  - assert (Hs : Js.ensureIsArray (shifts formData) <> []).
    { intros E. rewrite E in Hcus. discriminate. }
    assert (Hne : currentTimeRangeFilters formData <> []) by (rewrite Hf; discriminate).
    rewrite (useEffect_batch _ (not_cleared _ Hne (or_introl Hs))).
    unfold promises. rewrite Hf, !map_map.
    rewrite (map_ext _ (fun _ => []) (fun a => f_equal fst (Hidle a))).
    rewrite (map_ext _ (fun _ => Resolved {| value := Some "" |})
               (fun a => f_equal snd (Hidle a))).
    rewrite <- (map_map (fun _ => {| value := Some "" |}) Resolved).
    rewrite all_resolved_map. unfold labelsOf. now rewrite map_map.
Qed.

(** C9.  Without an explicit start date and with a previous custom
    temporal-range filter, [useStartDate] is the first piece of that
    filter's comparator split at " : " (the text before the first
    " : "), parsed and formatted as YYYY-MM-DD; it is the start date
    given to [getTimeOffset], and the second request is sent whatever
    [isSameOrBefore] answers: only the explicit start date is compared
    with the parsed one. *)
Theorem previous_custom_filter_supplies_start_date (formData : FormData)
  (first : BinaryAdhocFilter) (others : list BinaryAdhocFilter) :
  Js.truthy (startDate formData) = false ->
  previousCustomFilter formData = Some (first :: others) ->
  useStartDate formData =
    Some (format
            (extendedDayjs
               (parseDttmToDate (nth_error (Js.split " : " (comparator first)) 0)))
            "YYYY-MM-DD")
  /\ (forall a b : string,
        comparator first = a ++ " : " ++ b ->
        Js.sepFree " : " a (" : " ++ b) = true ->
        nth_error (Js.split " : " (comparator first)) 0 = Some a)
  /\ (forall (i : nat) (filter : BinaryAdhocFilter) (res : Response) (v : string)
        (dates : list string) (parsedStartDate : string),
        nth_error (currentTimeRangeFilters formData) i = Some filter ->
        Js.includes "inherit" (Js.ensureIsArray (shifts formData)) = true ->
        fetchTimeRange (comparator filter) (subject filter) None = Resolved res ->
        value res = Some v ->
        matchDefaultDatePattern v = Some dates ->
        nth_error dates 0 = Some parsedStartDate ->
        parsedStartDate <> "" ->
        nth_error (requests (useEffect formData)) i =
          Some [mkFetchCall (comparator filter) (subject filter) None;
                mkFetchCall (comparator filter) (subject filter)
                  (Some
                     (getTimeOffset
                        {| TimeOffset.timeRangeFilter :=
                             withComparator filter
                               (parsedStartDate ++ " : "
                                ++ Js.interpolate (nth_error dates 1));
                           TimeOffset.shifts :=
                             List.filter isRelativeShift
                               (Js.ensureIsArray (shifts formData));
                           TimeOffset.startDate :=
                             Some (format
                                     (extendedDayjs
                                        (parseDttmToDate
                                           (nth_error
                                              (Js.split " : " (comparator first)) 0)))
                                     "YYYY-MM-DD");
                           TimeOffset.includeFutureOffsets := false |}
                      ++ List.filter isLiteralShift
                           (Js.ensureIsArray (shifts formData)))%list)]).
Proof.
  intros Hstart Hprev.
  assert (Huse : useStartDate formData =
                 Some (format
                         (extendedDayjs
                            (parseDttmToDate
                               (nth_error (Js.split " : " (comparator first)) 0)))
                         "YYYY-MM-DD")).
  { unfold useStartDate. rewrite Hstart, Hprev. reflexivity. }
  split; [exact Huse|]. split.
  - intros a b -> Hfree. apply split_first; [discriminate | exact Hfree].
  - intros i filter res v dates parsedStartDate Hi Hinh Hres Hv Hm Hd Hne.
    assert (Hf : currentTimeRangeFilters formData <> []).
    { intros E. rewrite E in Hi. destruct i; discriminate. }
    assert (Hs : Js.ensureIsArray (shifts formData) <> []).
    { intros E. rewrite E in Hinh. discriminate. }
    pose proof (not_cleared _ Hf (or_introl Hs)) as Hc.
    assert (Hrel : (Js.includes "custom" (Js.ensureIsArray (shifts formData))
                    && Js.truthy (startDate formData))
                   || Js.includes "inherit" (Js.ensureIsArray (shifts formData)) = true).
    { rewrite Hinh. apply orb_true_r. }
    assert (Hgate :
              isSameOrBefore (extendedDayjs (parseDttmToDate (startDate formData)))
                (extendedDayjs (parseDttmToDate (Some parsedStartDate)))
              || negb (Js.truthy (startDate formData)) = true).
    { rewrite Hstart. apply orb_true_r. }
    rewrite (requests_of_filter _ _ _ Hc Hi).
    rewrite (resolveFilter_relative _ _ _ _ _ Hrel Hres).
    rewrite (onOwnRange_offsets _ _ _ _ _ _ _ _ Hv Hm Hd Hne Hgate).
    rewrite Huse. reflexivity.
Qed.

(** C10.  With an empty shift list, an explicit start date and at least
    one active temporal filter, the effect sends for each filter one
    request for the filter's own range with the empty shift list, the
    labels are read from the answers to those requests, and another
    explicit start date gives the same requests and the same labels. *)
Theorem start_date_alone_fetches_own_ranges
  (filters : list BinaryAdhocFilter) (custom : option (list BinaryAdhocFilter))
  (modern : option (list string)) (legacy : option string) (start other : string) :
  currentTimeRangeFilters (mkFormData filters custom modern legacy (Some start)) <> [] ->
  Js.ensureIsArray (shifts (mkFormData filters custom modern legacy (Some start))) = [] ->
  start <> "" ->
  other <> "" ->
  useEffect (mkFormData filters custom modern legacy (Some start)) =
    {| requests :=
         map (fun filter => [mkFetchCall (comparator filter) (subject filter) (Some [])])
             (List.filter isTemporalRange filters);
       setLabels :=
         match
           Async.all
             (map (fun filter =>
                     fetchTimeRange (comparator filter) (subject filter) (Some []))
                  (List.filter isTemporalRange filters))
         with
         | Resolved res => Some (map (fun r => Js.nullish (value r) "") res)
         | Rejected => None
         end |}
  /\ useEffect (mkFormData filters custom modern legacy (Some other))
     = useEffect (mkFormData filters custom modern legacy (Some start)).
Proof.
  intros Hf Hs Hstart Hother.
  assert (Hrun : forall s : string, s <> "" ->
            useEffect (mkFormData filters custom modern legacy (Some s)) =
              {| requests :=
                   map (fun filter =>
                          [mkFetchCall (comparator filter) (subject filter) (Some [])])
                       (List.filter isTemporalRange filters);
                 setLabels :=
                   match
                     Async.all
                       (map (fun filter =>
                               fetchTimeRange (comparator filter) (subject filter)
                                 (Some []))
                            (List.filter isTemporalRange filters))
                   with
                   | Resolved res => Some (map (fun r => Js.nullish (value r) "") res)
                   | Rejected => None
                   end |}).
  { intros s Hne.
    set (fd := mkFormData filters custom modern legacy (Some s)).
    assert (Hfs : currentTimeRangeFilters fd <> []) by exact Hf.
    assert (Hss : Js.ensureIsArray (shifts fd) = []) by exact Hs.
    assert (Hts : Js.truthy (startDate fd) = true) by exact (truthy_some _ Hne).
    rewrite (useEffect_batch _ (not_cleared _ Hfs (or_intror Hts))).
    unfold promises. rewrite Hss, !map_map.
    unfold labelsOf. f_equal. }
  split; [exact (Hrun start Hstart)|].
  now rewrite (Hrun start Hstart), (Hrun other Hother).
Qed.

End Specification.

(** ** The specification on concrete form data *)

(** The example of the specification: one filter on [ds] for January
    2024 and the shift "1 week ago". *)
Lemma literal_shifts_resolve_directly_witness :
  useEffect (ext := Demo.externals) Demo.weekAgo =
    {| requests := [[mkFetchCall "2024-01-01 : 2024-02-01" "ds" (Some ["1 week ago"])]];
       setLabels := Some ["ds (2024-01-01 : 2024-02-01) 1 week ago"] |}
  /\ labelsAfter ["stale"] (useEffect (ext := Demo.externals) Demo.weekAgo) =
       ["ds (2024-01-01 : 2024-02-01) 1 week ago"].
Proof.
  destruct (literal_shifts_resolve_directly (ext := Demo.externals) Demo.weekAgo)
    as [Hrun [_ Hlab]].
  - discriminate.
  - reflexivity.
  - left. discriminate.
  - split; [exact Hrun|]. apply Hlab. reflexivity.
Defined.

Lemma inherit_is_offset_then_refetched_witness :
  nth_error (requests (useEffect (ext := Demo.externals) Demo.inheritAndYear)) 0 =
    Some [mkFetchCall "2024-01-01 : 2024-02-01" "ds" None;
          mkFetchCall "2024-01-01 : 2024-02-01" "ds"
            (Some ["inherit from 2023-12-01 to 2024-01-01 : 2024-02-01"; "1 year ago"])]
  /\ exists answer,
       Demo.service "2024-01-01 : 2024-02-01" "ds"
         (Some ["inherit from 2023-12-01 to 2024-01-01 : 2024-02-01"; "1 year ago"])
       = Resolved answer
       /\ nth_error
            (labelsAfter ["stale"] (useEffect (ext := Demo.externals) Demo.inheritAndYear))
            0
          = Some (Js.nullish (value answer) "").
Proof.
  destruct (inherit_is_offset_then_refetched (ext := Demo.externals) Demo.inheritAndYear 0
              Demo.january {| value := Some "ds (2024-01-01 : 2024-02-01)" |}
              "ds (2024-01-01 : 2024-02-01)" ["2024-01-01"; "2024-02-01"] "2024-01-01"
              ["inherit from 2023-12-01 to 2024-01-01 : 2024-02-01"; "1 year ago"])
    as [_ [Hreq Hlabel]].
  - reflexivity.
  - reflexivity.
  - reflexivity.
  - reflexivity.
  - reflexivity.
  - reflexivity.
  - discriminate.
  - intros H. discriminate H.
  - reflexivity.
  - split; [exact Hreq|].
    apply (Hlabel
             [ {| value :=
                    Some "ds (2024-01-01 : 2024-02-01) inherit from 2023-12-01 to 2024-01-01 : 2024-02-01, 1 year ago" |} ]
             ["stale"]).
    reflexivity.
Defined.


Lemma custom_without_start_date_gives_empty_labels_witness :
  (forall filter : BinaryAdhocFilter,
     resolveFilter (ext := Demo.externals) ["custom"; "1 year ago"] None None filter
     = ([], Resolved {| value := Some "" |}))
  /\ useEffect (ext := Demo.externals) Demo.customAlone =
       {| requests := [[]; []]; setLabels := Some [""; ""] |}.
Proof.
  apply (custom_without_start_date_gives_empty_labels (ext := Demo.externals)
           Demo.customAlone); reflexivity.
Defined.

Lemma nothing_to_compare_clears_labels_witness :
  useEffect (ext := Demo.externals) Demo.noShifts = {| requests := []; setLabels := Some [] |}
  /\ labelsAfter ["ds (2023-01-01 : 2023-02-01)"]
       (useEffect (ext := Demo.externals) Demo.noShifts) = [].
Proof.
  apply (nothing_to_compare_clears_labels (ext := Demo.externals) Demo.noShifts).
  right. split; reflexivity.
Defined.

Lemma legacy_codes_only_without_time_compare_witness :
  Js.ensureIsArray (shifts Demo.legacyYear) = ["1 year ago"]
  /\ shifts Demo.legacyYear = Some ["1 year ago"]
  /\ shifts Demo.weekAgo = Some ["1 week ago"].
Proof.
  destruct (legacy_codes_only_without_time_compare Demo.legacyYear) as [Hy [Htable _]].
  destruct (legacy_codes_only_without_time_compare Demo.weekAgo) as [_ [_ Hmodern]].
  split; [|split].
  - apply Hy; reflexivity.
  - apply (Htable "y" "1 year ago"); [| reflexivity | reflexivity].
    right. left. reflexivity.
  - apply Hmodern. reflexivity.
Defined.

Lemma rejected_resolution_keeps_labels_witness :
  setLabels (useEffect (ext := Demo.externals) Demo.oneBroken) = None
  /\ labelsAfter ["ds (2023-01-01 : 2023-02-01)"]
       (useEffect (ext := Demo.externals) Demo.oneBroken)
     = ["ds (2023-01-01 : 2023-02-01)"].
Proof.
  apply (rejected_resolution_keeps_labels (ext := Demo.externals) Demo.oneBroken
           ["ds (2023-01-01 : 2023-02-01)"]
           ([mkFetchCall "2024-03-01 : 2024-04-01" "broken" (Some ["1 week ago"])],
            Rejected)).
  - reflexivity.
  - right. left. reflexivity.
  - reflexivity.
Defined.

Lemma successful_batch_replaces_labels_witness :
  labelsAfter ["stale"] (useEffect (ext := Demo.externals) Demo.startDateOnly)
  = ["ds (2024-01-01 : 2024-02-01) "; "ds (2023-12-01 : 2023-12-31) "]
  /\ length (labelsAfter ["stale"] (useEffect (ext := Demo.externals) Demo.startDateOnly)) = 2.
Proof.
  destruct (successful_batch_replaces_labels (ext := Demo.externals) Demo.startDateOnly
              ["stale"]
              [ {| value := Some "ds (2024-01-01 : 2024-02-01) " |};
                {| value := Some "ds (2023-12-01 : 2023-12-31) " |} ])
    as [Hlabels [Hlen _]].
  - reflexivity.
  - reflexivity.
  - split; [exact Hlabels | exact Hlen].
Defined.

Lemma previous_custom_filter_supplies_start_date_witness :
  useStartDate (ext := Demo.externals) Demo.inheritAndYear = Some "2023-12-01"
  /\ nth_error (Js.split " : " "2023-12-01 : 2023-12-31") 0 = Some "2023-12-01"
  /\ nth_error (requests (useEffect (ext := Demo.externals) Demo.inheritAndYear)) 0 =
       Some [mkFetchCall "2024-01-01 : 2024-02-01" "ds" None;
             mkFetchCall "2024-01-01 : 2024-02-01" "ds"
               (Some ["inherit from 2023-12-01 to 2024-01-01 : 2024-02-01";
                      "1 year ago"])].
Proof.
  destruct (previous_custom_filter_supplies_start_date (ext := Demo.externals)
              Demo.inheritAndYear Demo.december [])
    as [Huse [Hsplit Hreq]].
  - reflexivity.
  - reflexivity.
  - split; [exact Huse|]. split.
    + apply (Hsplit "2023-12-01" "2023-12-31"); reflexivity.
    + apply (Hreq 0 Demo.january {| value := Some "ds (2024-01-01 : 2024-02-01)" |}
               "ds (2024-01-01 : 2024-02-01)" ["2024-01-01"; "2024-02-01"] "2024-01-01");
        try reflexivity.
      discriminate.
Defined.

Lemma start_date_alone_fetches_own_ranges_witness :
  useEffect (ext := Demo.externals) Demo.startDateOnly =
    {| requests :=
         [[mkFetchCall "2024-01-01 : 2024-02-01" "ds" (Some [])];
          [mkFetchCall "2023-12-01 : 2023-12-31" "ds" (Some [])]];
       setLabels :=
         Some ["ds (2024-01-01 : 2024-02-01) "; "ds (2023-12-01 : 2023-12-31) "] |}
  /\ useEffect (ext := Demo.externals)
       (mkFormData [Demo.january; Demo.december] None None None (Some "2025-06-30"))
     = useEffect (ext := Demo.externals) Demo.startDateOnly.
Proof.
  apply (start_date_alone_fetches_own_ranges (ext := Demo.externals)
           [Demo.january; Demo.december] None None None "2023-11-01" "2025-06-30").
  - discriminate.
  - reflexivity.
  - discriminate.
  - discriminate.
Defined.

(** ** Further facts: requests, errors and edge cases of the effect *)

Lemma all_rejected_inv {A : Type} (ps : list (Promise A)) :
  Async.all ps = Rejected -> In Rejected ps.
Proof.
  induction ps as [|p ps IH]; simpl; [discriminate|].
  destruct p as [a|]; [|now left].
  destruct (Async.all ps); [discriminate|].
  intros _. right. now apply IH.
Qed.

Lemma string_app_empty (a : string) : a ++ "" = a.
Proof. induction a as [|c a IH]; simpl; [reflexivity | now rewrite IH]. Qed.

(** A string without the separator is the only piece of its split. *)
Lemma splitFrom_whole (sep a cur : string) :
  Js.sepFree sep a "" = true -> Js.splitFrom sep 0 cur a = [cur ++ a].
Proof.
  revert cur. induction a as [|ch a IH]; intros cur Hfree.
  - simpl. now rewrite string_app_empty.
  - cbn [Js.sepFree] in Hfree. apply andb_true_iff in Hfree as [Hno Hfree].
    apply negb_true_iff in Hno. rewrite string_app_empty in Hno.
    cbn [Js.splitFrom]. rewrite Hno, (IH _ Hfree).
    now rewrite string_app_assoc.
Qed.

Lemma orElse_some (s : string) : Js.orElse (Some s) "" = s.
Proof.
  unfold Js.orElse. simpl. destruct (String.eqb_spec s ""); simpl; congruence.
Qed.




Section Coverage.

Context {ext : Externals}.

(** The requests of the [then] callback: none, or one whose shift list
    ends with the literal shifts. *)
Lemma onOwnRange_calls (shiftsArray : list string) (start useStart : option string)
  (filter : BinaryAdhocFilter) (res : Response) :
  fst (onOwnRange shiftsArray start useStart filter res) = []
  \/ exists computed,
       fst (onOwnRange shiftsArray start useStart filter res) =
         [mkFetchCall (comparator filter) (subject filter)
            (Some (computed ++ List.filter isLiteralShift shiftsArray)%list)].
Proof.
  unfold onOwnRange.
  destruct (Js.truthy _); [|now left].
  destruct (_ || _); [|now left].
  right. eexists. reflexivity.
Qed.

(** The requests sent for one filter. *)
Lemma resolveFilter_calls (shiftsArray : list string) (start useStart : option string)
  (filter : BinaryAdhocFilter) :
  List.length (fst (resolveFilter shiftsArray start useStart filter)) <= 2
  /\ forall c, In c (fst (resolveFilter shiftsArray start useStart filter)) ->
       callTimeRange c = comparator filter
       /\ callColumn c = subject filter
       /\ (callShifts c = None
           \/ exists computed,
                callShifts c =
                  Some (computed ++ List.filter isLiteralShift shiftsArray)%list).
Proof.
  unfold resolveFilter.
  destruct (Js.isEmpty _).
  - simpl. split; [lia|]. intros c [<- | []]. simpl.
    repeat split. right. exists []. reflexivity.
  - destruct (_ || _).
    + unfold Async.andThen, fetch. simpl.
      destruct (fetchTimeRange (comparator filter) (subject filter) None) as [res|].
      * simpl.
        destruct (onOwnRange_calls shiftsArray start useStart filter res)
          as [-> | [computed ->]]; simpl.
        -- split; [lia|]. intros c [<- | []]. simpl. repeat split. now left.
        -- split; [lia|]. intros c [<- | [<- | []]]; simpl; repeat split.
           ++ now left.
           ++ right. now exists computed.
      * simpl. split; [lia|]. intros c [<- | []]. simpl. repeat split. now left.
    + simpl. split; [lia|]. intros c [].
Qed.

(** When two requests are sent for a filter, the first one is the
    request for its own range. *)
Lemma resolveFilter_first_call (shiftsArray : list string) (start useStart : option string)
  (filter : BinaryAdhocFilter) (c1 c2 : FetchCall) :
  fst (resolveFilter shiftsArray start useStart filter) = [c1; c2] ->
  callShifts c1 = None.
Proof.
  unfold resolveFilter.
  destruct (Js.isEmpty _); [discriminate|].
  destruct (_ || _); [|discriminate].
  unfold Async.andThen, fetch. simpl.
  destruct (fetchTimeRange (comparator filter) (subject filter) None) as [res|];
    [|discriminate].
  simpl. intros [= <- _]. reflexivity.
Qed.

(** X1.  When [time_compare] is absent and the legacy field is absent
    or holds anything but one of r, y, m, w, c, the selector gives no
    shift at all; without an explicit start date the effect then
    clears the labels and sends nothing. *)
Theorem unknown_legacy_code_gives_no_shift (formData : FormData) :
  time_compare formData = None ->
  (forall code : string,
     time_comparison formData = Some code -> ~ In code ["r"; "y"; "m"; "w"; "c"]) ->
  shifts formData = None
  /\ (Js.truthy (startDate formData) = false ->
      useEffect formData = {| requests := []; setLabels := Some [] |}).
Proof.
  intros Hm Hcode.
  assert (Hs : shifts formData = None).
  { unfold shifts. rewrite Hm. cbn [Js.truthyArray negb].
    destruct (time_comparison formData) as [code|] eqn:Hl; [|reflexivity].
    rewrite orElse_some. specialize (Hcode code eq_refl).
    assert (Hown : ownProperty oldChoices code = None).
    { unfold oldChoices. cbn [ownProperty].
      repeat match goal with
             | |- context [String.eqb ?k code] =>
                 destruct (String.eqb_spec k code);
                 [exfalso; apply Hcode; cbn [In]; tauto|]
             end.
      reflexivity. }
    now rewrite Hown. }
  split; [exact Hs|].
  intros Hstart. unfold useEffect, labelsCleared. rewrite Hs, Hstart. simpl.
  now rewrite orb_true_r.
Qed.

(** X2.  The effect leaves the labels untouched exactly when it started
    a batch and one of the promises of the batch rejected. *)
Theorem labels_untouched_only_on_rejection (formData : FormData) :
  setLabels (useEffect formData) = None
  <-> labelsCleared formData = false
      /\ exists p, In p (promises formData) /\ snd p = Rejected.
Proof.
  split.
  - intros Hnone. destruct (labelsCleared formData) eqn:Hc.
    + unfold useEffect in Hnone. rewrite Hc in Hnone. discriminate.
    + split; [reflexivity|].
      rewrite (useEffect_batch _ Hc) in Hnone. simpl in Hnone.
      destruct (Async.all (map snd (promises formData))) eqn:Hall; [discriminate|].
      apply all_rejected_inv, in_map_iff in Hall as [p [Hp Hin]].
      now exists p.
  - intros [Hc [p [Hin Hrej]]].
    rewrite (useEffect_batch _ Hc). simpl.
    rewrite all_rejected; [reflexivity|].
    rewrite <- Hrej. now apply in_map.
Qed.

(** X3.  Every list of requests of the effect belongs to an active
    temporal filter: the list at position [i] holds at most two
    requests, every one of them is for the comparator and the subject
    of the filter at position [i], and when there are two the first
    carries no shift list. *)
Theorem requests_stay_on_their_filter (formData : FormData) (i : nat)
  (calls : list FetchCall) :
  nth_error (requests (useEffect formData)) i = Some calls ->
  exists filter,
    nth_error (currentTimeRangeFilters formData) i = Some filter
    /\ List.length calls <= 2
    /\ (forall c, In c calls ->
          callTimeRange c = comparator filter /\ callColumn c = subject filter)
    /\ (forall c1 c2, calls = [c1; c2] -> callShifts c1 = None).
Proof.
  destruct (labelsCleared formData) eqn:Hc.
  - unfold useEffect. rewrite Hc. simpl. destruct i; discriminate.
  - rewrite (useEffect_batch _ Hc). simpl. unfold promises.
    intros H. rewrite map_map, nth_error_map in H.
    destruct (nth_error (currentTimeRangeFilters formData) i) as [filter|];
      [|discriminate].
    injection H as <-. exists filter. split; [reflexivity|].
    destruct (resolveFilter_calls (Js.ensureIsArray (shifts formData))
                (startDate formData) (useStartDate formData) filter) as [Hlen Hall].
    split; [exact Hlen|]. split.
    + intros c Hin. destruct (Hall c Hin) as [Ht [Hcol _]]. now split.
    + intros c1 c2. apply resolveFilter_first_call.
Qed.

(** X4.  Every request of the effect either carries no shift list (the
    request for the filter's own range) or a shift list that ends with
    the literal shifts of the form, in their order: literal shifts are
    never dropped, and "custom" and "inherit" are never among the
    shifts the component itself puts in a request. *)
Theorem literal_shifts_always_forwarded (formData : FormData) (i : nat)
  (calls : list FetchCall) (c : FetchCall) :
  nth_error (requests (useEffect formData)) i = Some calls ->
  In c calls ->
  callShifts c = None
  \/ exists computed,
       callShifts c =
         Some (computed
               ++ List.filter isLiteralShift (Js.ensureIsArray (shifts formData)))%list
       /\ forall shift,
            In shift (List.filter isLiteralShift (Js.ensureIsArray (shifts formData))) ->
            shift <> "custom" /\ shift <> "inherit".
Proof.
  intros Hi Hin.
  destruct (labelsCleared formData) eqn:Hc.
  - unfold useEffect in Hi. rewrite Hc in Hi. destruct i; discriminate Hi.
  - rewrite (useEffect_batch _ Hc) in Hi. simpl in Hi. unfold promises in Hi.
    rewrite map_map, nth_error_map in Hi.
    destruct (nth_error (currentTimeRangeFilters formData) i) as [filter|];
      [|discriminate].
    injection Hi as <-.
    destruct (resolveFilter_calls (Js.ensureIsArray (shifts formData))
                (startDate formData) (useStartDate formData) filter) as [_ Hall].
    destruct (Hall c Hin) as [_ [_ [Hnone | [computed Hsome]]]]; [now left|].
    right. exists computed. split; [exact Hsome|].
    intros shift Hshift. apply filter_In in Hshift as [_ Hlit].
    unfold isLiteralShift in Hlit. apply andb_true_iff in Hlit as [H1 H2].
    apply negb_true_iff in H1, H2. split; now apply String.eqb_neq.
Qed.

(** X5.  On the path of the relative shifts, when the request for the
    filter's own range is rejected, that request is the only one sent
    for the filter, and the labels stay what they were. *)
Theorem own_range_rejection_stops_the_filter (formData : FormData) (i : nat)
  (filter : BinaryAdhocFilter) (labels : list string) :
  nth_error (currentTimeRangeFilters formData) i = Some filter ->
  (Js.includes "custom" (Js.ensureIsArray (shifts formData))
   && Js.truthy (startDate formData))
  || Js.includes "inherit" (Js.ensureIsArray (shifts formData)) = true ->
  fetchTimeRange (comparator filter) (subject filter) None = Rejected ->
  nth_error (requests (useEffect formData)) i =
    Some [mkFetchCall (comparator filter) (subject filter) None]
  /\ labelsAfter labels (useEffect formData) = labels.
Proof.
  intros Hi Hrel Hrej.
  assert (Hf : currentTimeRangeFilters formData <> []).
  { intros E. rewrite E in Hi. destruct i; discriminate. }
  assert (Hs : Js.ensureIsArray (shifts formData) <> []).
  { intros E. rewrite E in Hrel. discriminate. }
  pose proof (not_cleared _ Hf (or_introl Hs)) as Hc.
  assert (Hrf : resolveFilter (Js.ensureIsArray (shifts formData)) (startDate formData)
                  (useStartDate formData) filter
                = ([mkFetchCall (comparator filter) (subject filter) None], Rejected)).
  { unfold resolveFilter. rewrite !includes_relative by reflexivity. rewrite Hrel.
    assert (Hne : Js.isEmpty
                    (List.filter isRelativeShift (Js.ensureIsArray (shifts formData)))
                  = false).
    { apply orb_true_iff in Hrel as [H|H].
      - apply andb_true_iff in H as [H _].
        rewrite <- (includes_relative "custom") in H by reflexivity.
        exact (includes_not_empty _ _ H).
      - rewrite <- (includes_relative "inherit") in H by reflexivity.
        exact (includes_not_empty _ _ H). }
    rewrite Hne. unfold Async.andThen, fetch. simpl. now rewrite Hrej. }
  split.
  - now rewrite (requests_of_filter _ _ _ Hc Hi), Hrf.
  - unfold labelsAfter. rewrite (useEffect_batch _ Hc). simpl.
    rewrite all_rejected; [reflexivity|].
    apply in_map_iff. eexists. split; [|apply in_map, (nth_error_In _ _ Hi)].
    now rewrite Hrf.
Qed.

(** X6.  On the path of the relative shifts, when the answer for the
    filter's own range has no value, or a value in which the date
    pattern finds nothing, the filter's promise resolves to the
    empty value without a second request, and once the batch resolves
    the filter's label is the empty string. *)
Theorem unparseable_own_range_gives_empty_label (formData : FormData) (i : nat)
  (filter : BinaryAdhocFilter) (res : Response) :
  nth_error (currentTimeRangeFilters formData) i = Some filter ->
  (Js.includes "custom" (Js.ensureIsArray (shifts formData))
   && Js.truthy (startDate formData))
  || Js.includes "inherit" (Js.ensureIsArray (shifts formData)) = true ->
  fetchTimeRange (comparator filter) (subject filter) None = Resolved res ->
  value res = None
  \/ (exists v, value res = Some v /\ matchDefaultDatePattern v = None) ->
  resolveFilter (Js.ensureIsArray (shifts formData)) (startDate formData)
    (useStartDate formData) filter
  = ([mkFetchCall (comparator filter) (subject filter) None],
     Resolved {| value := Some "" |})
  /\ nth_error (requests (useEffect formData)) i =
       Some [mkFetchCall (comparator filter) (subject filter) None]
  /\ forall (batch : list Response) (labels : list string),
       Async.all (map snd (promises formData)) = Resolved batch ->
       nth_error (labelsAfter labels (useEffect formData)) i = Some "".
Proof.
  intros Hi Hrel Hres Hbad.
  assert (Hf : currentTimeRangeFilters formData <> []).
  { intros E. rewrite E in Hi. destruct i; discriminate. }
  assert (Hs : Js.ensureIsArray (shifts formData) <> []).
  { intros E. rewrite E in Hrel. discriminate. }
  pose proof (not_cleared _ Hf (or_introl Hs)) as Hc.
  pose proof (resolveFilter_relative _ (startDate formData) (useStartDate formData)
                filter res Hrel Hres) as Hrf.
  assert (Hown : onOwnRange (Js.ensureIsArray (shifts formData)) (startDate formData)
                   (useStartDate formData) filter res
                 = Async.resolve {| value := Some "" |}).
  { unfold onOwnRange. destruct Hbad as [-> | [v [-> ->]]]; reflexivity. }
  rewrite Hown in Hrf. simpl in Hrf. split; [exact Hrf|]. split.
  - now rewrite (requests_of_filter _ _ _ Hc Hi), Hrf.
  - intros batch labels Hall.
    destruct (stored_label_of_filter _ _ _ _ labels Hc Hi Hall) as [r [Hr Hl]].
    rewrite Hrf in Hr. simpl in Hr. injection Hr as <-. exact Hl.
Qed.

(** X7.  With "custom" among the shifts and an explicit start date that
    is on or before the start date found in the answer for the filter's
    own range, [getTimeOffset] receives that explicit start date
    (whatever the previous custom filter is) and
    [includeFutureOffsets = false]; a second request is sent with its
    result followed by the literal shifts, the filter's promise is the
    promise of that request, and once the batch resolves the filter's
    label is the value of its answer. *)
Theorem custom_with_start_date_is_offset_then_refetched (formData : FormData) (i : nat)
  (filter : BinaryAdhocFilter) (start : string) (res : Response) (v : string)
  (dates : list string) (parsedStartDate : string) (combined : list string) :
  nth_error (currentTimeRangeFilters formData) i = Some filter ->
  Js.includes "custom" (Js.ensureIsArray (shifts formData)) = true ->
  startDate formData = Some start ->
  start <> "" ->
  fetchTimeRange (comparator filter) (subject filter) None = Resolved res ->
  value res = Some v ->
  matchDefaultDatePattern v = Some dates ->
  nth_error dates 0 = Some parsedStartDate ->
  parsedStartDate <> "" ->
  isSameOrBefore (extendedDayjs (parseDttmToDate (Some start)))
                 (extendedDayjs (parseDttmToDate (Some parsedStartDate))) = true ->
  combined =
    (getTimeOffset
       {| TimeOffset.timeRangeFilter :=
            withComparator filter
              (parsedStartDate ++ " : " ++ Js.interpolate (nth_error dates 1));
          TimeOffset.shifts :=
            List.filter isRelativeShift (Js.ensureIsArray (shifts formData));
          TimeOffset.startDate := Some start;
          TimeOffset.includeFutureOffsets := false |}
     ++ List.filter isLiteralShift (Js.ensureIsArray (shifts formData)))%list ->
  resolveFilter (Js.ensureIsArray (shifts formData)) (startDate formData)
    (useStartDate formData) filter
  = ([mkFetchCall (comparator filter) (subject filter) None;
      mkFetchCall (comparator filter) (subject filter) (Some combined)],
     fetchTimeRange (comparator filter) (subject filter) (Some combined))
  /\ nth_error (requests (useEffect formData)) i =
       Some [mkFetchCall (comparator filter) (subject filter) None;
             mkFetchCall (comparator filter) (subject filter) (Some combined)]
  /\ forall (batch : list Response) (labels : list string),
       Async.all (map snd (promises formData)) = Resolved batch ->
       exists answer,
         fetchTimeRange (comparator filter) (subject filter) (Some combined)
         = Resolved answer
         /\ nth_error (labelsAfter labels (useEffect formData)) i
            = Some (Js.nullish (value answer) "").
Proof.
  intros Hi Hcus Hstart Hne Hres Hv Hm Hd Hpne Hgate ->.
  assert (Ht : Js.truthy (startDate formData) = true).
  { rewrite Hstart. exact (truthy_some _ Hne). }
  assert (Hf : currentTimeRangeFilters formData <> []).
  { intros E. rewrite E in Hi. destruct i; discriminate. }
  pose proof (not_cleared _ Hf (or_intror Ht)) as Hc.
  assert (Huse : useStartDate formData = Some start).
  { unfold useStartDate. now rewrite Ht, Hstart. }
  assert (Hrel : (Js.includes "custom" (Js.ensureIsArray (shifts formData))
                  && Js.truthy (startDate formData))
                 || Js.includes "inherit" (Js.ensureIsArray (shifts formData)) = true).
  { now rewrite Hcus, Ht. }
  assert (Hgate' :
            isSameOrBefore (extendedDayjs (parseDttmToDate (startDate formData)))
              (extendedDayjs (parseDttmToDate (Some parsedStartDate)))
            || negb (Js.truthy (startDate formData)) = true).
  { now rewrite Hstart, Hgate. }
  pose proof (resolveFilter_relative _ (startDate formData) (useStartDate formData)
                filter res Hrel Hres) as Hrf.
  rewrite (onOwnRange_offsets _ _ _ _ _ _ _ _ Hv Hm Hd Hpne Hgate'), Huse in Hrf.
  simpl in Hrf. split; [now rewrite Huse|]. split.
  - now rewrite (requests_of_filter _ _ _ Hc Hi), Huse, Hrf.
  - intros batch labels Hall.
    destruct (stored_label_of_filter _ _ _ _ labels Hc Hi Hall) as [r [Hr Hl]].
    rewrite Huse, Hrf in Hr. exists r. split; [exact Hr | exact Hl].
Qed.

(** X8.  The start date given to [getTimeOffset] is the explicit one as
    it is (also when it is absent) whenever it is set, or
    [adhoc_custom] is absent, or [adhoc_custom] holds no temporal-range
    filter. *)
Theorem start_date_is_kept_without_previous_filter (formData : FormData) :
  Js.truthy (startDate formData) = true
  \/ adhoc_custom formData = None
  \/ (exists previous,
        adhoc_custom formData = Some previous
        /\ forall f, In f previous -> operator f <> "TEMPORAL_RANGE") ->
  useStartDate formData = startDate formData.
Proof.
  intros [Ht | [Hnone | [previous [Hsome Hall]]]]; unfold useStartDate.
  - now rewrite Ht.
  - unfold previousCustomFilter. rewrite Hnone. simpl. now rewrite andb_false_r.
  - unfold previousCustomFilter. rewrite Hsome. simpl.
    assert (Hnil : List.filter isTemporalRange previous = []).
    { clear Hsome. induction previous as [|f previous IH]; simpl; [reflexivity|].
      unfold isTemporalRange at 1.
      destruct (String.eqb_spec (operator f) "TEMPORAL_RANGE") as [E|_].
      - exfalso. apply (Hall f); [now left | exact E].
      - apply IH. intros g Hg. apply Hall. now right. }
    rewrite Hnil. simpl. now rewrite andb_false_r.
Qed.

(** X9.  Without an explicit start date, when the comparator of the
    first previous custom temporal-range filter holds no " : ", the
    whole comparator is what is parsed and formatted as the start
    date. *)
Theorem previous_comparator_without_separator (formData : FormData)
  (first : BinaryAdhocFilter) (others : list BinaryAdhocFilter) :
  Js.truthy (startDate formData) = false ->
  previousCustomFilter formData = Some (first :: others) ->
  Js.sepFree " : " (comparator first) "" = true ->
  useStartDate formData =
    Some (format (extendedDayjs (parseDttmToDate (Some (comparator first))))
            "YYYY-MM-DD").
Proof.
  intros Hstart Hprev Hfree. unfold useStartDate. rewrite Hstart, Hprev. simpl negb.
  cbn [andb Js.isEmptyOpt Js.isEmpty negb]. unfold Js.split.
  now rewrite (splitFrom_whole _ _ "" Hfree).
Qed.

(** X11.  After an effect that called [setLabels], the component
    renders nothing exactly when the effect took its first branch (no
    active temporal filter, or no shift and no start date). *)
Theorem renders_nothing_only_when_cleared (t : string -> string) (formData : FormData)
  (labels stored : list string) :
  setLabels (useEffect formData) = Some stored ->
  (render t (labelsAfter labels (useEffect formData)) = None
   <-> labelsCleared formData = true).
Proof.
  intros Hset. unfold labelsAfter. rewrite Hset.
  destruct (labelsCleared formData) eqn:Hc.
  - unfold useEffect in Hset. rewrite Hc in Hset. injection Hset as <-.
    split; reflexivity.
  - rewrite (useEffect_batch _ Hc) in Hset. simpl in Hset.
    destruct (Async.all (map snd (promises formData))) as [res|] eqn:Hall;
      [|discriminate].
    injection Hset as <-. apply all_resolved_inv in Hall.
    apply (f_equal (@List.length _)) in Hall. unfold promises in Hall.
    rewrite !length_map in Hall.
    assert (Hf : currentTimeRangeFilters formData <> []).
    { intros E. unfold labelsCleared in Hc. rewrite E in Hc. discriminate. }
    unfold render, labelsOf. rewrite length_map, <- Hall.
    destruct (currentTimeRangeFilters formData); [congruence|].
    simpl. split; discriminate.
Qed.

End Coverage.


(** ** The further facts on concrete form data *)

Lemma unknown_legacy_code_gives_no_shift_witness :
  shifts Demo.legacyUnknown = None
  /\ useEffect (ext := Demo.externals) Demo.legacyUnknown
     = {| requests := []; setLabels := Some [] |}.
Proof.
  destruct (unknown_legacy_code_gives_no_shift (ext := Demo.externals) Demo.legacyUnknown)
    as [Hshifts Heffect].
  - reflexivity.
  - intros code [= <-]. cbn [In].
    intros [H | [H | [H | [H | [H | []]]]]]; discriminate H.
  - split; [exact Hshifts|]. apply Heffect. reflexivity.
Defined.

Lemma labels_untouched_only_on_rejection_witness :
  setLabels (useEffect (ext := Demo.externals) Demo.oneBroken) = None.
Proof.
  apply (proj2 (labels_untouched_only_on_rejection (ext := Demo.externals) Demo.oneBroken)).
  split; [reflexivity|].
  exists ([mkFetchCall "2024-03-01 : 2024-04-01" "broken" (Some ["1 week ago"])], Rejected).
  split; [|reflexivity]. right. left. reflexivity.
Defined.

Lemma requests_stay_on_their_filter_witness :
  exists filter,
    nth_error (currentTimeRangeFilters Demo.customEarly) 0 = Some filter
    /\ 2 <= 2
    /\ (forall c,
          In c [mkFetchCall "2024-01-01 : 2024-02-01" "ds" None;
                mkFetchCall "2024-01-01 : 2024-02-01" "ds"
                  (Some ["custom from 2023-11-01 to 2024-01-01 : 2024-02-01";
                         "1 week ago"])] ->
          callTimeRange c = comparator filter /\ callColumn c = subject filter)
    /\ (forall c1 c2,
          [mkFetchCall "2024-01-01 : 2024-02-01" "ds" None;
           mkFetchCall "2024-01-01 : 2024-02-01" "ds"
             (Some ["custom from 2023-11-01 to 2024-01-01 : 2024-02-01"; "1 week ago"])]
          = [c1; c2] ->
          callShifts c1 = None).
Proof.
  apply (requests_stay_on_their_filter (ext := Demo.externals) Demo.customEarly 0
           [mkFetchCall "2024-01-01 : 2024-02-01" "ds" None;
            mkFetchCall "2024-01-01 : 2024-02-01" "ds"
              (Some ["custom from 2023-11-01 to 2024-01-01 : 2024-02-01"; "1 week ago"])]).
  reflexivity.
Defined.

Lemma literal_shifts_always_forwarded_witness :
  Some ["custom from 2023-11-01 to 2024-01-01 : 2024-02-01"; "1 week ago"] = None
  \/ exists computed,
       Some ["custom from 2023-11-01 to 2024-01-01 : 2024-02-01"; "1 week ago"]
       = Some (computed ++ ["1 week ago"])%list
       /\ forall shift, In shift ["1 week ago"] -> shift <> "custom" /\ shift <> "inherit".
Proof.
  apply (literal_shifts_always_forwarded (ext := Demo.externals) Demo.customEarly 0
           [mkFetchCall "2024-01-01 : 2024-02-01" "ds" None;
            mkFetchCall "2024-01-01 : 2024-02-01" "ds"
              (Some ["custom from 2023-11-01 to 2024-01-01 : 2024-02-01"; "1 week ago"])]
           (mkFetchCall "2024-01-01 : 2024-02-01" "ds"
              (Some ["custom from 2023-11-01 to 2024-01-01 : 2024-02-01"; "1 week ago"]))).
  - reflexivity.
  - right. left. reflexivity.
Defined.

Lemma own_range_rejection_stops_the_filter_witness :
  nth_error (requests (useEffect (ext := Demo.externals) Demo.brokenInherit)) 1 =
    Some [mkFetchCall "2024-03-01 : 2024-04-01" "broken" None]
  /\ labelsAfter ["stale"] (useEffect (ext := Demo.externals) Demo.brokenInherit)
     = ["stale"].
Proof.
  apply (own_range_rejection_stops_the_filter (ext := Demo.externals) Demo.brokenInherit 1
           Demo.brokenRange ["stale"]); reflexivity.
Defined.

Lemma unparseable_own_range_gives_empty_label_witness :
  nth_error (requests (useEffect (ext := Demo.externals) Demo.inheritLastWeek)) 0 =
    Some [mkFetchCall "Last week" "ds" None]
  /\ nth_error
       (labelsAfter ["stale"] (useEffect (ext := Demo.externals) Demo.inheritLastWeek)) 0
     = Some "".
Proof.
  destruct (unparseable_own_range_gives_empty_label (ext := Demo.externals)
              Demo.inheritLastWeek 0 Demo.lastWeek {| value := Some "ds (Last week)" |})
    as [_ [Hreq Hlabel]].
  - reflexivity.
  - reflexivity.
  - reflexivity.
  - right. exists "ds (Last week)". split; reflexivity.
  - split; [exact Hreq|].
    apply (Hlabel [ {| value := Some "" |} ] ["stale"]). reflexivity.
Defined.

Lemma custom_with_start_date_is_offset_then_refetched_witness :
  nth_error (requests (useEffect (ext := Demo.externals) Demo.customEarlyAgain)) 0 =
    Some [mkFetchCall "2024-01-01 : 2024-02-01" "ds" None;
          mkFetchCall "2024-01-01 : 2024-02-01" "ds"
            (Some ["custom from 2023-11-01 to 2024-01-01 : 2024-02-01"; "1 week ago"])]
  /\ exists answer,
       Demo.service "2024-01-01 : 2024-02-01" "ds"
         (Some ["custom from 2023-11-01 to 2024-01-01 : 2024-02-01"; "1 week ago"])
       = Resolved answer
       /\ nth_error
            (labelsAfter ["stale"]
               (useEffect (ext := Demo.externals) Demo.customEarlyAgain)) 0
          = Some (Js.nullish (value answer) "").
Proof.
  destruct (custom_with_start_date_is_offset_then_refetched (ext := Demo.externals)
              Demo.customEarlyAgain 0 Demo.january "2023-11-01"
              {| value := Some "ds (2024-01-01 : 2024-02-01)" |}
              "ds (2024-01-01 : 2024-02-01)" ["2024-01-01"; "2024-02-01"] "2024-01-01"
              ["custom from 2023-11-01 to 2024-01-01 : 2024-02-01"; "1 week ago"])
    as [_ [Hreq Hlabel]]; try reflexivity; try discriminate.
  split; [exact Hreq|].
  apply (Hlabel
           [ {| value :=
                  Some "ds (2024-01-01 : 2024-02-01) custom from 2023-11-01 to 2024-01-01 : 2024-02-01, 1 week ago" |} ]
           ["stale"]).
  reflexivity.
Defined.

Lemma start_date_is_kept_without_previous_filter_witness :
  useStartDate (ext := Demo.externals) Demo.customEarlyAgain = Some "2023-11-01"
  /\ useStartDate (ext := Demo.externals) Demo.brokenInherit = None.
Proof.
  split.
  - apply (start_date_is_kept_without_previous_filter (ext := Demo.externals)
             Demo.customEarlyAgain).
    left. reflexivity.
  - apply (start_date_is_kept_without_previous_filter (ext := Demo.externals)
             Demo.brokenInherit).
    right. left. reflexivity.
Defined.

Lemma previous_comparator_without_separator_witness :
  useStartDate (ext := Demo.externals) Demo.inheritLastWeek = Some "Last week".
Proof.
  apply (previous_comparator_without_separator (ext := Demo.externals)
           Demo.inheritLastWeek Demo.lastWeek []); reflexivity.
Defined.

Lemma renders_nothing_only_when_cleared_witness :
  (render (fun s => s)
     (labelsAfter ["stale"] (useEffect (ext := Demo.externals) Demo.noShifts)) = None
   <-> labelsCleared Demo.noShifts = true)
  /\ (render (fun s => s)
        (labelsAfter ["stale"] (useEffect (ext := Demo.externals) Demo.customAlone)) = None
      <-> labelsCleared Demo.customAlone = true).
Proof.
  split.
  - apply (renders_nothing_only_when_cleared (ext := Demo.externals) (fun s => s)
             Demo.noShifts ["stale"] []).
    reflexivity.
  - apply (renders_nothing_only_when_cleared (ext := Demo.externals) (fun s => s)
             Demo.customAlone ["stale"] [""; ""]).
    reflexivity.
Defined.

